(** * Slack to Bedrock bridge: the Lambda handler of [lambda_function.py]

    A shallow embedding of the handler and of its three thin clients
    (Redis deduplication store, Bedrock agent invocation, Slack notifier),
    followed by the properties of the orchestration that the specification
    states about them.

    Conventions of the embedding.
    - A Python [str] is the list of its Unicode code points; [lit] turns an
      ASCII literal of the source into such a list.
    - A Python [bytes] object is a [list byte]; [bytes.decode()] is the
      strict UTF-8 decoder [utf8_decode].
    - A Python exception is the pair of its class and of the text that
      [str(e)] yields.
    - The code runs in a small state-and-exception monad [M]: the state is
      the content of the Redis store together with the log of the calls made
      to the outside world; an exception keeps the state reached so far.
    - What the outside world answers (Redis faults, the Bedrock event
      stream, the replies of the Slack API) is a [world] value the run is
      parameterised by.  [print] statements have no effect on control flow
      or on the store and are not modelled. *)

From Stdlib Require Import ZArith NArith List Lia.
From Stdlib.Strings Require Import Ascii String Byte.
From stdpp Require Import base option list gmap.
Import ListNotations.

#[local] Open Scope N_scope.

(** ** Python strings *)

Abbreviation pystr := (list N) (only parsing).
Abbreviation bytes := (list byte) (only parsing).

Definition lit (s : string) : pystr :=
  List.map N_of_ascii (list_ascii_of_string s).

Definition encode_ascii (s : string) : bytes := list_byte_of_string s.

(** [str.isspace] on one code point, as CPython's [_PyUnicode_IsWhitespace]. *)
Definition isspace (c : N) : bool :=
  ((0x09 <=? c) && (c <=? 0x0D)) || ((0x1C <=? c) && (c <=? 0x20))
  || (c =? 0x85) || (c =? 0xA0) || (c =? 0x1680)
  || ((0x2000 <=? c) && (c <=? 0x200A))
  || (c =? 0x2028) || (c =? 0x2029) || (c =? 0x202F) || (c =? 0x205F)
  || (c =? 0x3000).

Fixpoint lstrip (s : pystr) : pystr :=
  match s with
  | [] => []
  | c :: t => if isspace c then lstrip t else s
  end.

Definition rstrip (s : pystr) : pystr := rev (lstrip (rev s)).

(** [s.strip()] *)
Definition strip (s : pystr) : pystr := rstrip (lstrip s).

(** Truth value of a [str]: non-empty. *)
Definition truthy_str (s : pystr) : bool :=
  match s with [] => false | _ :: _ => true end.

Fixpoint startswith (s old : pystr) : bool :=
  match old, s with
  | [], _ => true
  | _ :: _, [] => false
  | o :: old', c :: s' => (c =? o) && startswith s' old'
  end.

(** Left-to-right scan of [str.replace] for a non-empty [old]; [skip] counts
    the code points of the current occurrence that remain to be dropped. *)
Fixpoint replace_scan (old new : pystr) (skip : nat) (s : pystr) : pystr :=
  match s with
  | [] => []
  | c :: t =>
      match skip with
      | S k => replace_scan old new k t
      | O =>
          if startswith s old
          then new ++ replace_scan old new (pred (length old)) t
          else c :: replace_scan old new O t
      end
  end.

(** [s.replace(old, new)] *)
Definition replace (s old new : pystr) : pystr :=
  match old with
  | [] => new ++ flat_map (fun c => c :: new) s
  | _ :: _ => replace_scan old new O s
  end.

(** [str(x)] for a value that is a [str] or [None], as in an f-string. *)
Definition py_str (x : option pystr) : pystr :=
  match x with
  | Some s => s
  | None => lit "None"
  end.

(** ** Strict UTF-8 decoding, [bytes.decode()] *)

Definition is_cont (b : N) : bool := (0x80 <=? b) && (b <=? 0xBF).

Definition cont_bits (b : N) : N := N.land b 0x3F.

(** The second byte of a three-byte sequence excludes over-long forms and
    the surrogates; that of a four-byte sequence excludes over-long forms
    and code points above U+10FFFF. *)
Definition second_of_3 (b0 b1 : N) : bool :=
  if b0 =? 0xE0 then (0xA0 <=? b1) && (b1 <=? 0xBF)
  else if b0 =? 0xED then (0x80 <=? b1) && (b1 <=? 0x9F)
  else is_cont b1.

Definition second_of_4 (b0 b1 : N) : bool :=
  if b0 =? 0xF0 then (0x90 <=? b1) && (b1 <=? 0xBF)
  else if b0 =? 0xF4 then (0x80 <=? b1) && (b1 <=? 0x8F)
  else is_cont b1.

Fixpoint utf8_points (bs : list N) : option pystr :=
  match bs with
  | [] => Some []
  | b0 :: t0 =>
      if b0 <? 0x80 then
        option_map (cons b0) (utf8_points t0)
      else if (0xC2 <=? b0) && (b0 <=? 0xDF) then
        match t0 with
        | b1 :: t1 =>
            if is_cont b1
            then option_map
                   (cons (N.shiftl (N.land b0 0x1F) 6 + cont_bits b1))
                   (utf8_points t1)
            else None
        | _ => None
        end
      else if (0xE0 <=? b0) && (b0 <=? 0xEF) then
        match t0 with
        | b1 :: b2 :: t2 =>
            if second_of_3 b0 b1 && is_cont b2
            then option_map
                   (cons (N.shiftl (N.land b0 0x0F) 12
                          + N.shiftl (cont_bits b1) 6 + cont_bits b2))
                   (utf8_points t2)
            else None
        | _ => None
        end
      else if (0xF0 <=? b0) && (b0 <=? 0xF4) then
        match t0 with
        | b1 :: b2 :: b3 :: t3 =>
            if second_of_4 b0 b1 && is_cont b2 && is_cont b3
            then option_map
                   (cons (N.shiftl (N.land b0 0x07) 18
                          + N.shiftl (cont_bits b1) 12
                          + N.shiftl (cont_bits b2) 6 + cont_bits b3))
                   (utf8_points t3)
            else None
        | _ => None
        end
      else None
  end.

Definition utf8_decode (b : bytes) : option pystr :=
  utf8_points (List.map Byte.to_N b).


(** ** Exceptions and the execution monad *)

Inductive exn_class :=
| JSONDecodeError | TypeError | KeyError | AttributeError
| UnicodeDecodeError | ClientError | RedisError | HTTPError.

(** An exception: its class and the text of [str(e)]. *)
Record exn := Exn { exn_kind : exn_class; exn_text : pystr }.

Inductive result (A : Type) : Type :=
| Ok (a : A)
| Raise (e : exn).
Arguments Ok {A} a.
Arguments Raise {A} e.

(** ** Data exchanged with the collaborators *)

(** A value of the deduplication store: [SETEX key ttl value]. *)
Record dedup_record := { dedup_value : pystr; dedup_ttl : Z }.

(** Arguments of [bedrock.invoke_agent]. *)
Record agent_request := {
  agentAliasId : option pystr;
  agentId : option pystr;
  enableTrace : bool;
  endSession : bool;
  inputText : pystr;
  sessionId : pystr
}.

(** The [chunk] member of an event of the completion stream: a dict with
    the optional members [bytes] and [attribution]. *)
Record chunk_dict := { chunk_bytes : option bytes; chunk_attribution : bool }.

(** An event of the completion stream, seen through [event.get("chunk")]. *)
Record fragment := { get_chunk : option chunk_dict }.

(** What [invoke_agent] does: it raises, or it returns a response whose
    [completion] stream yields [events] and then ends, or breaks with an
    exception while being read. *)
Inductive agent_reply :=
| InvokeRaises (e : exn)
| Completion (events : list fragment) (broken : option exn).

(** The dict [data] posted to [chat.postMessage]. *)
Record slack_payload := {
  payload_channel : option pystr;
  payload_text : pystr;
  payload_thread_ts : option pystr
}.

Record http_headers := { Authorization : pystr; Content_Type : pystr }.

(** What [http.request] does: it returns a response, whatever its status,
    or it raises. *)
Inductive http_outcome :=
| Responded (status : Z) (data : bytes)
| RequestRaises (e : exn).

(** One call to the outside world, with what came back where the
    properties below need it. *)
Inductive call :=
| RedisExists (key : pystr)
| RedisSetex (key : pystr) (ttl : Z) (value : pystr) (fault : option exn)
| InvokeAgent (req : agent_request)
| SlackPost (url : pystr) (headers : http_headers) (payload : slack_payload)
            (reply : http_outcome).

(** The state a run threads: the Redis store and the log of calls. *)
Record machine := { store : gmap pystr dedup_record; calls : list call }.

Definition M (A : Type) : Type := machine -> result A * machine.

Definition ret {A} (a : A) : M A := fun s => (Ok a, s).

Definition raise {A} (e : exn) : M A := fun s => (Raise e, s).

Definition bind {A B} (m : M A) (k : A -> M B) : M B :=
  fun s =>
    match m s with
    | (Ok a, s') => k a s'
    | (Raise e, s') => (Raise e, s')
    end.

(** [try: m  except Exception as e: h e] *)
Definition try_except {A} (m : M A) (h : exn -> M A) : M A :=
  fun s =>
    match m s with
    | (Ok a, s') => (Ok a, s')
    | (Raise e, s') => h e s'
    end.

Notation "'let*' x := m 'in' k" := (bind m (fun x => k))
  (at level 10, x name, m at level 100, k at level 200).
Notation "m ;; k" := (bind m (fun _ => k))
  (at level 100, k at level 200, right associativity).

Definition get_store : M (gmap pystr dedup_record) := fun s => (Ok (store s), s).

Definition put_store (st : gmap pystr dedup_record) : M unit :=
  fun s => (Ok tt, {| store := st; calls := calls s |}).

Definition get_calls : M (list call) := fun s => (Ok (calls s), s).

Definition log_call (c : call) : M unit :=
  fun s => (Ok tt, {| store := store s; calls := calls s ++ [c] |}).

(** ** The environment of a run *)

(** [os.environ] *)
Record config := {
  SLACK_TOKEN : option pystr;
  AGENT_ID_ALIAS : option pystr;
  SLACK_BOT_USER_ID : option pystr;
  AGENT_ID : option pystr
}.

(** The behaviour of the collaborators during a run. [slack_api n d] is the
    outcome of the [n]-th POST of the run (counted from 0), with payload
    [d]. [decode_error_text b] is the interpreter's wording of the
    [UnicodeDecodeError] raised by decoding the ill-formed [b]. *)
Record world := {
  redis_exists_fault : option exn;
  redis_setex_fault : option exn;
  bedrock : agent_request -> agent_reply;
  slack_api : nat -> slack_payload -> http_outcome;
  decode_error_text : bytes -> pystr
}.

(** ** Inbound event *)

(** The nested [event] object of the body. An absent member is [None], as
    [dict.get] returns; members that are present are strings, as the Slack
    Events API sends them. *)
Record slack_event := {
  get_text : option pystr;
  get_user : option pystr;
  get_channel : option pystr;
  get_ts : option pystr
}.

(** The parsed body, a JSON object; [None] again stands for a missing
    key. *)
Record body_obj := {
  get_event_id : option pystr;
  get_event : option slack_event
}.

(** The [body] of the Lambda event, by what [json.loads(event.get('body'))]
    makes of it: an exception (no body, or text that is not JSON) or the
    object it denotes. *)
Inductive request_body :=
| Unparsable (e : exn)
| Parsed (o : body_obj).

Record lambda_event := { body : request_body }.

Record lambda_context := { aws_request_id : pystr }.

(** The dict under [json.dumps] in the handler's return value. *)
Record ack_body := { message : pystr }.

Record response := { statusCode : Z; response_body : ack_body }.

(** ** The program *)

Section Program.

Variable cfg : config.
Variable w : world.

(** *** Redis client *)

(** [redis_client.exists(key)]: the number of the given keys that exist. *)
Definition redis_exists (key : pystr) : M Z :=
  log_call (RedisExists key) ;;
  match redis_exists_fault w with
  | Some e => raise e
  | None =>
      let* st := get_store in
      ret (match st !! key with Some _ => 1 | None => 0 end)%Z
  end.

(** [redis_client.setex(key, time, value)], [time] in seconds. *)
Definition redis_setex (key : pystr) (time : Z) (value : pystr) : M unit :=
  log_call (RedisSetex key time value (redis_setex_fault w)) ;;
  match redis_setex_fault w with
  | Some e => raise e
  | None =>
      let* st := get_store in
      put_store (<[key := {| dedup_value := value; dedup_ttl := time |}]> st)
  end.

(** [timedelta(hours=h)], as the number of seconds [setex] makes of it. *)
Definition timedelta_hours (h : Z) : Z := (h * 3600)%Z.

Definition event_id_already_processed (event_id : pystr) : M Z :=
  redis_exists event_id.

Definition mark_event_as_processed (event_id : pystr) : M unit :=
  try_except
    (redis_setex event_id (timedelta_hours 1) (lit "processed"))
    (fun e => raise e).

(** *** Bedrock agent client *)

(** Truth value of [chunk]: neither [None] nor the empty dict. *)
Definition truthy_chunk (c : option chunk_dict) : bool :=
  match c with
  | None => false
  | Some d =>
      match chunk_bytes d with
      | Some _ => true
      | None => chunk_attribution d
      end
  end.

Definition none_has_no (attr : string) : exn :=
  Exn AttributeError
    (lit "'NoneType' object has no attribute '" ++ lit attr ++ lit "'").

(** [chunk.get("bytes").decode()] *)
Definition decode_chunk (chunk : option chunk_dict) : M pystr :=
  match chunk with
  | None => raise (none_has_no "get")
  | Some d =>
      match chunk_bytes d with
      | None => raise (none_has_no "decode")
      | Some b =>
          match utf8_decode b with
          | Some s => ret s
          | None => raise (Exn UnicodeDecodeError (decode_error_text w b))
          end
      end
  end.

(** The body of the [for event in response.get("completion")] loop, over
    the events the stream yields. *)
Fixpoint consume (events : list fragment) (completion : pystr) : M pystr :=
  match events with
  | [] => ret completion
  | event :: rest =>
      let chunk := get_chunk event in
      if truthy_chunk chunk then
        let* decoded_bytes := decode_chunk chunk in
        if truthy_str (strip decoded_bytes)
        then consume rest (completion ++ decoded_bytes)
        else consume rest completion
      else consume rest completion
  end.

Definition fallback : pystr := lit "No response from the agent.".

Definition call_bedrock_agent (question : pystr) (agent_id : option pystr)
    (request_id : pystr) : M pystr :=
  let agent_alias_id := AGENT_ID_ALIAS cfg in
  let enable_trace := true in
  let end_session := false in
  let session_id := request_id in
  let* completion :=
    try_except
      (let req := {| agentAliasId := agent_alias_id; agentId := agent_id;
                     enableTrace := enable_trace; endSession := end_session;
                     inputText := question; sessionId := session_id |} in
       log_call (InvokeAgent req) ;;
       match bedrock w req with
       | InvokeRaises e => raise e
       | Completion events broken =>
           let* completion := consume events [] in
           match broken with
           | Some e => raise e
           | None => ret completion
           end
       end)
      (fun e => raise e) in
  if truthy_str completion then ret completion else ret fallback.

(** *** Slack notifier *)

Definition slack_url : pystr := lit "https://slack.com/api/chat.postMessage".

Definition is_post (c : call) : bool :=
  match c with SlackPost _ _ _ _ => true | _ => false end.

(** [http.request('POST', url, headers=headers, body=json.dumps(data))] *)
Definition http_request (url : pystr) (headers : http_headers)
    (data : slack_payload) : M http_outcome :=
  let* log := get_calls in
  let reply := slack_api w (length (List.filter is_post log)) data in
  log_call (SlackPost url headers data reply) ;;
  match reply with
  | RequestRaises e => raise e
  | Responded _ _ => ret reply
  end.

Definition send_message_to_slack (channel : option pystr) (message : pystr)
    (user_id : option pystr) (thread_ts : option pystr) : M unit :=
  let data := {| payload_channel := channel;
                 payload_text := lit "<@" ++ py_str user_id ++ lit "> " ++ message;
                 payload_thread_ts := thread_ts |} in
  let headers := {| Authorization := lit "Bearer " ++ py_str (SLACK_TOKEN cfg);
                    Content_Type := lit "application/json" |} in
  let* response := http_request slack_url headers data in
  ret tt.

(** *** The handler *)

Definition apology (e : exn) : pystr :=
  lit "Uh-oh! Something went wrong. Please try again in a few minutes or reach out to our support team if the issue persists. (Error: "
  ++ exn_text e ++ lit ")".

Definition ack (m : string) : response :=
  {| statusCode := 200; response_body := {| message := lit m |} |}.

Definition lambda_handler (event : lambda_event) (context : lambda_context)
    : M response :=
  let* body_obj :=
    match body event with
    | Unparsable e => raise e
    | Parsed o => ret o
    end in
  let* event_id :=
    match get_event_id body_obj with
    | None => raise (Exn KeyError (lit "'event_id'"))
    | Some i => ret i
    end in
  let* seen := event_id_already_processed event_id in
  if (seen =? 0)%Z then
    let request_id := aws_request_id context in
    let* ev :=
      match get_event body_obj with
      | None => raise (none_has_no "get")
      | Some ev => ret ev
      end in
    let slack_text := get_text ev in
    let slack_user := get_user ev in
    let channel := get_channel ev in
    let thread_ts := get_ts ev in
    let slack_bot_user_id := SLACK_BOT_USER_ID cfg in
    if bool_decide (slack_user = slack_bot_user_id) then
      ret (ack "Bot ignored its own message")
    else
      let* cleaned_question :=
        match slack_text with
        | None => raise (none_has_no "replace")
        | Some t =>
            ret (strip (replace t (lit "<@" ++ py_str slack_bot_user_id ++ lit ">") []))
        end in
      let agent_id := AGENT_ID cfg in
      try_except
        (let* assistant_response :=
           call_bedrock_agent cleaned_question agent_id request_id in
         send_message_to_slack channel assistant_response slack_user thread_ts ;;
         mark_event_as_processed event_id)
        (fun e =>
           let err := apology e in
           send_message_to_slack channel err slack_user thread_ts) ;;
      ret (ack "Success")
  else
    ret (ack "Success").

(** A run of the handler on a store, with an empty call log. *)
Definition run {A} (m : M A) (st : gmap pystr dedup_record) : result A * machine :=
  m {| store := st; calls := [] |}.

End Program.


Arguments call_bedrock_agent : simpl never.
Arguments send_message_to_slack : simpl never.
Arguments mark_event_as_processed : simpl never.
Arguments event_id_already_processed : simpl never.
Arguments lit : simpl never.
Arguments strip : simpl never.
Arguments replace : simpl never.
Arguments apology : simpl never.

(** ** Vocabulary of the properties *)

Definition empty_machine : machine := {| store := ∅; calls := [] |}.

(** The request [call_bedrock_agent] builds. *)
Definition agent_req (cfg : config) (question : pystr)
    (agent_id : option pystr) (request_id : pystr) : agent_request :=
  {| agentAliasId := AGENT_ID_ALIAS cfg; agentId := agent_id;
     enableTrace := true; endSession := false;
     inputText := question; sessionId := request_id |}.

(** What [call_bedrock_agent] returns or raises. *)
Definition agent_outcome (cfg : config) (w : world) (question : pystr)
    (agent_id : option pystr) (request_id : pystr) : result pystr :=
  fst (call_bedrock_agent cfg w question agent_id request_id empty_machine).

(** The sanitized question the handler sends to the agent. *)
Definition question_of (cfg : config) (t : pystr) : pystr :=
  strip (replace t (lit "<@" ++ py_str (SLACK_BOT_USER_ID cfg) ++ lit ">") []).

Definition is_invoke (c : call) : bool :=
  match c with InvokeAgent _ => true | _ => false end.

Definition is_setex (c : call) : bool :=
  match c with RedisSetex _ _ _ _ => true | _ => false end.

(** The posts the platform answered: the messages that were sent. *)
Definition is_sent (c : call) : bool :=
  match c with SlackPost _ _ _ (Responded _ _) => true | _ => false end.

(** The effect of one logged call on the store, and of a log. *)
Definition apply_call (st : gmap pystr dedup_record) (c : call)
    : gmap pystr dedup_record :=
  match c with
  | RedisSetex key ttl value None =>
      <[key := {| dedup_value := value; dedup_ttl := ttl |}]> st
  | _ => st
  end.

Definition replay (st : gmap pystr dedup_record) (log : list call)
    : gmap pystr dedup_record :=
  fold_left apply_call log st.

(** [needle] occurs in [hay]. *)
Definition contains (needle hay : pystr) : Prop :=
  exists pre post, hay = pre ++ needle ++ post.

(** The payload and headers [send_message_to_slack] builds. *)
Definition slack_data (channel : option pystr) (message : pystr)
    (user_id thread_ts : option pystr) : slack_payload :=
  {| payload_channel := channel;
     payload_text := lit "<@" ++ py_str user_id ++ lit "> " ++ message;
     payload_thread_ts := thread_ts |}.

Definition slack_headers (cfg : config) : http_headers :=
  {| Authorization := lit "Bearer " ++ py_str (SLACK_TOKEN cfg);
     Content_Type := lit "application/json" |}.

(** The acknowledgment after a post on the apology path: the handler
    returns unless the post itself raised. *)
Definition after_apology (reply : http_outcome) : result response :=
  match reply with
  | Responded _ _ => Ok (ack "Success")
  | RequestRaises e => Raise e
  end.

(** The paths of [lambda_handler], as a decision tree over the input and
    over what the collaborators answer; [lambda_handler_run] proves that
    the handler follows it. *)
Definition handler_paths (cfg : config) (w : world) (event : lambda_event)
    (context : lambda_context) (st : gmap pystr dedup_record)
    : result response * machine :=
  let at_log log := {| store := st; calls := log |} in
  match body event with
  | Unparsable e => (Raise e, at_log [])
  | Parsed o =>
  match get_event_id o with
  | None => (Raise (Exn KeyError (lit "'event_id'")), at_log [])
  | Some id =>
  let exists_ := RedisExists id in
  match redis_exists_fault w with
  | Some e => (Raise e, at_log [exists_])
  | None =>
  match st !! id with
  | Some _ => (Ok (ack "Success"), at_log [exists_])
  | None =>
  match get_event o with
  | None => (Raise (none_has_no "get"), at_log [exists_])
  | Some sev =>
  if bool_decide (get_user sev = SLACK_BOT_USER_ID cfg)
  then (Ok (ack "Bot ignored its own message"), at_log [exists_])
  else
  match get_text sev with
  | None => (Raise (none_has_no "replace"), at_log [exists_])
  | Some t =>
  let req := agent_req cfg (question_of cfg t) (AGENT_ID cfg)
               (aws_request_id context) in
  let post n message :=
    let data := slack_data (get_channel sev) message (get_user sev) (get_ts sev) in
    SlackPost slack_url (slack_headers cfg) data (slack_api w n data) in
  let reply n message :=
    slack_api w n
      (slack_data (get_channel sev) message (get_user sev) (get_ts sev)) in
  let setex fault := RedisSetex id 3600 (lit "processed") fault in
  match agent_outcome cfg w (question_of cfg t) (AGENT_ID cfg)
          (aws_request_id context) with
  | Raise e =>
      (after_apology (reply 0%nat (apology e)),
       at_log [exists_; InvokeAgent req; post 0%nat (apology e)])
  | Ok answer =>
      match reply 0%nat answer with
      | RequestRaises e =>
          (after_apology (reply 1%nat (apology e)),
           at_log [exists_; InvokeAgent req; post 0%nat answer;
                   post 1%nat (apology e)])
      | Responded _ _ =>
          match redis_setex_fault w with
          | None =>
              (Ok (ack "Success"),
               {| store := <[id := {| dedup_value := lit "processed";
                                      dedup_ttl := 3600 |}]> st;
                  calls := [exists_; InvokeAgent req; post 0%nat answer;
                            setex None] |})
          | Some e =>
              (after_apology (reply 1%nat (apology e)),
               at_log [exists_; InvokeAgent req; post 0%nat answer;
                       setex (Some e); post 1%nat (apology e)])
          end
      end
  end end end end end end end.

(** The byte payload a fragment carries, if any. *)
Definition payload (f : fragment) : option bytes :=
  match get_chunk f with
  | Some d => chunk_bytes d
  | None => None
  end.

(** The payloads of the fragments that carry one, decoded, in arrival
    order; [None] when one of them is not UTF-8. *)
Fixpoint decoded_payloads (events : list fragment) : option (list pystr) :=
  match events with
  | [] => Some []
  | f :: rest =>
      match payload f with
      | None => decoded_payloads rest
      | Some b =>
          match utf8_decode b with
          | None => None
          | Some t => option_map (cons t) (decoded_payloads rest)
          end
      end
  end.

(** The accumulated text, or the fallback when it is empty. *)
Definition or_fallback (completion : pystr) : pystr :=
  if truthy_str completion then completion else fallback.

(** The result the specification words: the concatenation of all the
    decoded payloads, or the fallback. *)
Definition spec_response (texts : list pystr) : pystr :=
  or_fallback (concat texts).

(** A text of white space only (the empty text included). *)
Definition blank (t : pystr) : bool := forallb isspace t.

(** A chunk that is a non-empty dict without [bytes]. *)
Definition bytes_missing (f : fragment) : bool :=
  truthy_chunk (get_chunk f) && negb (bool_decide (is_Some (payload f))).

(** The world [w] with an agent that answers the given stream. *)
Definition with_stream (w : world) (events : list fragment)
    (broken : option exn) : world :=
  {| redis_exists_fault := redis_exists_fault w;
     redis_setex_fault := redis_setex_fault w;
     bedrock := fun _ => Completion events broken;
     slack_api := slack_api w;
     decode_error_text := decode_error_text w |}.

(** A fragment with a [chunk] that holds the given bytes. *)
Definition chunk_of (b : bytes) : fragment :=
  {| get_chunk := Some {| chunk_bytes := Some b; chunk_attribution := false |} |}.



(** The body cannot be parsed, or has no [event_id]. *)
Definition no_event_id (event : lambda_event) : bool :=
  match body event with
  | Unparsable _ => true
  | Parsed o => negb (bool_decide (is_Some (get_event_id o)))
  end.

(** The state [s] with one more call in its log. *)
Definition logged (s : machine) (c : call) : machine :=
  {| store := store s; calls := calls s ++ [c] |}.

(** ** Concrete inputs and worlds *)

Definition demo_cfg : config :=
  {| SLACK_TOKEN := Some (lit "xoxb-token");
     AGENT_ID_ALIAS := Some (lit "ALIAS1");
     SLACK_BOT_USER_ID := Some (lit "BOT123");
     AGENT_ID := Some (lit "AGENT1") |}.

Definition demo_context : lambda_context := {| aws_request_id := lit "req-1" |}.

Definition event_from (user_id : option pystr) : lambda_event :=
  {| body := Parsed
       {| get_event_id := Some (lit "Ev1");
          get_event := Some {| get_text := Some (lit "<@BOT123> what is X?");
                               get_user := user_id;
                               get_channel := Some (lit "C1");
                               get_ts := Some (lit "1700000000.1") |} |} |}.

(** A question of user U1, the bot talking to itself, a body without
    [user], and a body that is not JSON. *)
Definition demo_event : lambda_event := event_from (Some (lit "U1")).
Definition bot_event : lambda_event := event_from (Some (lit "BOT123")).
Definition anonymous_event : lambda_event := event_from None.
Definition garbage_event : lambda_event :=
  {| body := Unparsable (Exn JSONDecodeError (lit "Expecting value: line 1 column 1 (char 0)")) |}.

Definition hello_stream : list fragment :=
  [chunk_of (encode_ascii "Hel"); chunk_of (encode_ascii "lo, ");
   chunk_of (encode_ascii "world")].

(** Every collaborator answers. *)
Definition healthy : world :=
  {| redis_exists_fault := None;
     redis_setex_fault := None;
     bedrock := fun _ => Completion hello_stream None;
     slack_api := fun _ _ => Responded 200 [];
     decode_error_text := fun _ => lit "invalid start byte" |}.

(** The agent is throttled. *)
Definition agent_down : world :=
  {| redis_exists_fault := None;
     redis_setex_fault := None;
     bedrock := fun _ => InvokeRaises (Exn ClientError (lit "ThrottlingException"));
     slack_api := fun _ _ => Responded 200 [];
     decode_error_text := decode_error_text healthy |}.


(** The first post of the run times out, the next ones go through. *)
Definition slack_times_out : world :=
  {| redis_exists_fault := None;
     redis_setex_fault := None;
     bedrock := bedrock healthy;
     slack_api := fun n _ =>
       match n with
       | O => RequestRaises (Exn HTTPError (lit "Read timed out."))
       | S _ => Responded 200 []
       end;
     decode_error_text := decode_error_text healthy |}.

(** Redis refuses the write. *)
Definition redis_write_down : world :=
  {| redis_exists_fault := None;
     redis_setex_fault := Some (Exn RedisError (lit "Connection refused."));
     bedrock := bedrock healthy;
     slack_api := slack_api healthy;
     decode_error_text := decode_error_text healthy |}.

Definition processed : dedup_record :=
  {| dedup_value := lit "processed"; dedup_ttl := 3600 |}.

Definition seen_store : gmap pystr dedup_record := {[ lit "Ev1" := processed ]}.

(** A chunk with an attribution and no bytes. *)
Definition attribution_only : fragment :=
  {| get_chunk := Some {| chunk_bytes := None; chunk_attribution := true |} |}.

Definition spaced_stream : list fragment :=
  [chunk_of (encode_ascii "Hello"); chunk_of (encode_ascii " ");
   chunk_of (encode_ascii "world")].

(** ** Further vocabulary and inputs *)

(** The at-mention of the bot that the handler removes from the text. *)
Definition mention (cfg : config) : pystr :=
  lit "<@" ++ py_str (SLACK_BOT_USER_ID cfg) ++ lit ">".

Definition is_exists (c : call) : bool :=
  match c with RedisExists _ => true | _ => false end.

(** The post is addressed as the event asks: to its channel and thread,
    mentioning its user, with the configured token. *)
Definition addressed_to (cfg : config) (sev : slack_event) (c : call) : Prop :=
  exists message reply,
    c = SlackPost slack_url (slack_headers cfg)
          (slack_data (get_channel sev) message (get_user sev) (get_ts sev))
          reply.

(** The texts of the posts of a log, in order. *)
Definition posted_texts (log : list call) : list pystr :=
  flat_map (fun c => match c with
                     | SlackPost _ _ d _ => [payload_text d]
                     | _ => []
                     end) log.

(** Redis answers no read. *)
Definition redis_read_down : world :=
  {| redis_exists_fault := Some (Exn RedisError (lit "Connection refused."));
     redis_setex_fault := None;
     bedrock := bedrock healthy;
     slack_api := slack_api healthy;
     decode_error_text := decode_error_text healthy |}.

(** The agent is throttled and Slack cannot be reached. *)
Definition all_down : world :=
  {| redis_exists_fault := None;
     redis_setex_fault := None;
     bedrock := bedrock agent_down;
     slack_api := fun _ _ => RequestRaises (Exn HTTPError (lit "Max retries exceeded"));
     decode_error_text := decode_error_text healthy |}.

(** A message that is the mention of the bot and a space. *)
Definition mention_only_event : lambda_event :=
  {| body := Parsed
       {| get_event_id := Some (lit "Ev1");
          get_event := Some {| get_text := Some (lit "<@BOT123> ");
                               get_user := Some (lit "U1");
                               get_channel := Some (lit "C1");
                               get_ts := Some (lit "1700000000.1") |} |} |}.

(** A state with an earlier record under the key, and another key. *)
Definition stale_machine : machine :=
  {| store := {[ lit "Ev1" := {| dedup_value := lit "old"; dedup_ttl := 5 |};
                 lit "Ev0" := processed ]};
     calls := [] |}.

(** A body whose [event] has no [text]. *)
Definition textless_event : lambda_event :=
  {| body := Parsed
       {| get_event_id := Some (lit "Ev1");
          get_event := Some {| get_text := None;
                               get_user := Some (lit "U1");
                               get_channel := Some (lit "C1");
                               get_ts := Some (lit "1700000000.1") |} |} |}.

(** ** Properties *)

Section Properties.

Variable cfg : config.
Variable w : world.

(** The loop over the stream neither reads nor changes the state. *)
Lemma consume_stateless events : forall completion s,
  consume w events completion s
  = (fst (consume w events completion empty_machine), s).
Proof.
  induction events as [|event rest IH]; intros completion s; [reflexivity|].
  cbn [consume].
  destruct (truthy_chunk (get_chunk event)); [|apply IH].
  unfold bind, decode_chunk.
  destruct (get_chunk event) as [d|]; [|reflexivity].
  destruct (chunk_bytes d) as [b|]; [|reflexivity].
  destruct (utf8_decode b) as [t|]; [|reflexivity].
  cbn [ret]. destruct (truthy_str (strip t)); apply IH.
Qed.

(** [call_bedrock_agent] logs the invocation and does nothing else to the
    state; what it returns does not depend on the state. *)
Lemma call_bedrock_agent_run question agent_id request_id s :
  call_bedrock_agent cfg w question agent_id request_id s
  = (agent_outcome cfg w question agent_id request_id,
     {| store := store s;
        calls := calls s ++ [InvokeAgent (agent_req cfg question agent_id request_id)] |}).
Proof.
  unfold agent_outcome, call_bedrock_agent, bind, try_except, log_call.
  fold (agent_req cfg question agent_id request_id).
  destruct (bedrock w _) as [e|events broken]; [reflexivity|].
  rewrite (consume_stateless events [] {| store := store s; calls := _ |}).
  rewrite (consume_stateless events [] {| store := store empty_machine; calls := _ |}).
  destruct (fst (consume w events [] empty_machine)) as [c|e]; [|reflexivity].
  destruct broken; [reflexivity|].
  cbn. destruct (truthy_str c); reflexivity.
Qed.

(** One-step behaviour of the three thin clients. *)

Lemma event_id_already_processed_run event_id s :
  event_id_already_processed w event_id s
  = (match redis_exists_fault w with
     | Some e => Raise e
     | None => Ok (match store s !! event_id with Some _ => 1 | None => 0 end)%Z
     end, logged s (RedisExists event_id)).
Proof.
  unfold event_id_already_processed, redis_exists, bind, log_call, logged.
  destruct (redis_exists_fault w); reflexivity.
Qed.

Lemma send_message_to_slack_run channel message user_id thread_ts s :
  let reply := slack_api w (length (List.filter is_post (calls s)))
                 (slack_data channel message user_id thread_ts) in
  send_message_to_slack cfg w channel message user_id thread_ts s
  = (match reply with
     | Responded _ _ => Ok tt
     | RequestRaises e => Raise e
     end,
     logged s (SlackPost slack_url (slack_headers cfg)
                 (slack_data channel message user_id thread_ts) reply)).
Proof.
  unfold send_message_to_slack, http_request, bind, log_call, get_calls, logged.
  fold (slack_data channel message user_id thread_ts). fold (slack_headers cfg).
  cbn [calls store].
  destruct (slack_api w _ _); reflexivity.
Qed.

Lemma mark_event_as_processed_run event_id s :
  mark_event_as_processed w event_id s
  = (match redis_setex_fault w with Some e => Raise e | None => Ok tt end,
     {| store := apply_call (store s)
                   (RedisSetex event_id 3600 (lit "processed") (redis_setex_fault w));
        calls := calls s
                 ++ [RedisSetex event_id 3600 (lit "processed") (redis_setex_fault w)] |}).
Proof.
  unfold mark_event_as_processed, redis_setex, try_except, bind, log_call,
    get_store, put_store, raise.
  change (timedelta_hours 1) with 3600%Z.
  destruct (redis_setex_fault w); reflexivity.
Qed.

(** The handler follows [handler_paths]. *)
Lemma lambda_handler_run event context st :
  run (lambda_handler cfg w event context) st
  = handler_paths cfg w event context st.
Proof.
  unfold run, handler_paths, lambda_handler, bind, try_except.
  destruct (body event) as [e|o]; [reflexivity|]. cbn [ret].
  destruct (get_event_id o) as [id|]; [|reflexivity]. cbn [ret].
  rewrite event_id_already_processed_run. cbn [store logged calls app].
  destruct (redis_exists_fault w) as [e|]; [reflexivity|].
  destruct (st !! id) as [r|]; [reflexivity|]. cbn [Z.eqb].
  destruct (get_event o) as [sev|]; [|reflexivity]. cbn [ret].
  destruct (bool_decide _); [reflexivity|].
  destruct (get_text sev) as [t|]; [|reflexivity]. cbn [ret].
  fold (question_of cfg t).
  rewrite call_bedrock_agent_run. cbn [store calls app].
  destruct (agent_outcome _ _ _ _ _) as [answer|e].
  - rewrite send_message_to_slack_run.
    cbn [store calls app logged List.filter is_post length].
    destruct (slack_api w 0 _) as [status data|e] eqn:Hr0.
    + rewrite mark_event_as_processed_run. cbn [store calls app].
      destruct (redis_setex_fault w) as [e|]; [|reflexivity].
      rewrite send_message_to_slack_run.
      cbn [store calls app logged List.filter is_post length apply_call].
      unfold after_apology. destruct (slack_api w 1 _); reflexivity.
    + rewrite send_message_to_slack_run.
      cbn [store calls app logged List.filter is_post length].
      unfold after_apology. destruct (slack_api w 1 _); reflexivity.
  - rewrite send_message_to_slack_run.
    cbn [store calls app logged List.filter is_post length].
    unfold after_apology. destruct (slack_api w 0 _); reflexivity.
Qed.

(** The store after a run is the initial store with the logged writes
    applied: [replay] reconstructs the store at every point of the log. *)
Lemma store_is_replay event context st :
  let m := snd (run (lambda_handler cfg w event context) st) in
  store m = replay st (calls m).
Proof.
  rewrite lambda_handler_run. unfold handler_paths, replay.
  repeat case_match; reflexivity.
Qed.

(** In every run, a write to the store comes fourth in the log, after the
    existence check, the agent invocation and a post of the answer that
    came back with a response, and it is the write of this event's key with
    the sentinel and a TTL of 3600 seconds. *)
Lemma write_only_after_answer_posted event context st key ttl value fault :
  let m := snd (run (lambda_handler cfg w event context) st) in
  In (RedisSetex key ttl value fault) (calls m) ->
  exists req data status reply_data rest,
    calls m
    = [RedisExists key; InvokeAgent req;
       SlackPost slack_url (slack_headers cfg) data (Responded status reply_data);
       RedisSetex key 3600 (lit "processed") fault] ++ rest
    /\ ttl = 3600%Z /\ value = lit "processed" /\ st !! key = None.
Proof.
  rewrite lambda_handler_run. unfold handler_paths.
  destruct (body event) as [e|o]; [intros []|].
  destruct (get_event_id o) as [id|]; [|intros []].
  destruct (redis_exists_fault w) as [e|]; [by intros [|[]]|].
  destruct (st !! id) as [r|] eqn:Hst; [by intros [|[]]|].
  destruct (get_event o) as [sev|]; [|by intros [|[]]].
  destruct (bool_decide _); [by intros [|[]]|].
  destruct (get_text sev) as [t|]; [|by intros [|[]]].
  destruct (agent_outcome _ _ _ _ _) as [answer|e];
    [|by intros [|[|[|[]]]]].
  destruct (slack_api w 0 _) as [status data|e];
    [|by intros [|[|[|[|[]]]]]].
  destruct (redis_setex_fault w) as [e|]; cbn [snd calls].
  - intros [|[|[|[H|[|[]]]]]]; try done. injection H as <- <- <- <-.
    by eexists _, _, _, _, [_].
  - intros [|[|[|[H|[]]]]]; try done. injection H as <- <- <- <-.
    by eexists _, _, _, _, [].
Qed.

Lemma contains_apology e : contains (exn_text e) (apology e).
Proof. unfold contains, apology. eauto. Qed.

Lemma contains_app_l needle pre hay :
  contains needle hay -> contains needle (pre ++ hay).
Proof.
  intros (a & b & ->). exists (pre ++ a), b. by rewrite <- app_assoc.
Qed.

(** C1. When the [event_id] of the inbound event is already in the
    deduplication store, the handler only asks the store whether the key
    exists: it invokes no agent, posts no notification, leaves the store as
    it was and returns the success acknowledgment. *)
Theorem duplicate_delivery_is_noop event context st o id r :
  body event = Parsed o ->
  get_event_id o = Some id ->
  redis_exists_fault w = None ->
  st !! id = Some r ->
  run (lambda_handler cfg w event context) st
  = (Ok (ack "Success"), {| store := st; calls := [RedisExists id] |}).
Proof.
  intros Hbody Hid Hread Hseen.
  rewrite lambda_handler_run. unfold handler_paths.
  by rewrite Hbody, Hid, Hread, Hseen.
Qed.

(** C3. When the agent invocation raises [e], the event's key is not in
    the store after the run, nothing was written, and the notifier was
    called exactly once, with the apology that embeds [str(e)]. *)
Theorem agent_failure_notifies_once_and_does_not_mark
    event context st o id sev t e :
  body event = Parsed o ->
  get_event_id o = Some id ->
  redis_exists_fault w = None ->
  st !! id = None ->
  get_event o = Some sev ->
  get_user sev <> SLACK_BOT_USER_ID cfg ->
  get_text sev = Some t ->
  agent_outcome cfg w (question_of cfg t) (AGENT_ID cfg) (aws_request_id context)
  = Raise e ->
  let m := snd (run (lambda_handler cfg w event context) st) in
  let data := slack_data (get_channel sev) (apology e) (get_user sev) (get_ts sev) in
  store m !! id = None
  /\ List.filter is_setex (calls m) = []
  /\ (exists reply,
        List.filter is_post (calls m)
        = [SlackPost slack_url (slack_headers cfg) data reply])
  /\ contains (exn_text e) (apology e)
  /\ contains (exn_text e) (payload_text data).
Proof.
  intros Hbody Hid Hread Hnew Hev Huser Htext Hagent.
  rewrite lambda_handler_run. unfold handler_paths.
  rewrite Hbody, Hid, Hread, Hnew, Hev, Htext, Hagent.
  rewrite bool_decide_eq_false_2 by assumption.
  cbn [snd store calls List.filter is_setex is_post].
  repeat split; [done|eauto|apply contains_apology|].
  unfold slack_data; cbn [payload_text].
  do 3 apply contains_app_l. apply contains_apology.
Qed.

(** C4. In a run where the agent answers, the answer is posted and the
    write succeeds, the handler calls, in this order, the agent, the
    notifier and [SETEX event_id 3600 processed]; the key is in the store
    with that value and TTL afterwards, and at no earlier point of the
    log. *)
Theorem successful_run_marks_last event context st o id sev t answer status data :
  body event = Parsed o ->
  get_event_id o = Some id ->
  redis_exists_fault w = None ->
  st !! id = None ->
  get_event o = Some sev ->
  get_user sev <> SLACK_BOT_USER_ID cfg ->
  get_text sev = Some t ->
  agent_outcome cfg w (question_of cfg t) (AGENT_ID cfg) (aws_request_id context)
  = Ok answer ->
  slack_api w 0 (slack_data (get_channel sev) answer (get_user sev) (get_ts sev))
  = Responded status data ->
  redis_setex_fault w = None ->
  let R := run (lambda_handler cfg w event context) st in
  fst R = Ok (ack "Success")
  /\ calls (snd R)
     = [RedisExists id;
        InvokeAgent (agent_req cfg (question_of cfg t) (AGENT_ID cfg)
                       (aws_request_id context));
        SlackPost slack_url (slack_headers cfg)
          (slack_data (get_channel sev) answer (get_user sev) (get_ts sev))
          (Responded status data);
        RedisSetex id 3600 (lit "processed") None]
  /\ store (snd R) !! id
     = Some {| dedup_value := lit "processed"; dedup_ttl := 3600 |}
  /\ store (snd R) = replay st (calls (snd R))
  /\ forall n, (n < length (calls (snd R)))%nat ->
       replay st (take n (calls (snd R))) !! id = None.
Proof.
  intros Hbody Hid Hread Hnew Hev Huser Htext Hagent Hpost Hwrite R.
  split_and!; [..|apply store_is_replay|]; subst R;
    rewrite lambda_handler_run; unfold handler_paths;
    rewrite Hbody, Hid, Hread, Hnew, Hev, Htext, Hagent, Hpost, Hwrite;
    rewrite bool_decide_eq_false_2 by assumption;
    cbn [fst snd store calls]; [done|done|apply lookup_insert_eq|].
  intros n Hn. cbn [length] in Hn.
  do 4 (destruct n as [|n]; [exact Hnew|]). lia.
Qed.

(** C5. When the [user] of the event is the configured bot identity, the
    handler returns with status 200 after asking the store whether the key
    exists: it invokes no agent, posts nothing and writes nothing, so that
    any later delivery runs on the same store as if this one had not
    happened. *)
Theorem self_message_has_no_effect event context st o id sev :
  body event = Parsed o ->
  get_event_id o = Some id ->
  redis_exists_fault w = None ->
  get_event o = Some sev ->
  get_user sev = SLACK_BOT_USER_ID cfg ->
  let R := run (lambda_handler cfg w event context) st in
  (exists resp, fst R = Ok resp /\ statusCode resp = 200%Z)
  /\ snd R = {| store := st; calls := [RedisExists id] |}
  /\ forall event' context',
       run (lambda_handler cfg w event' context') (store (snd R))
       = run (lambda_handler cfg w event' context') st.
Proof.
  intros Hbody Hid Hread Hev Huser R.
  assert (HR : snd R = {| store := st; calls := [RedisExists id] |}
               /\ exists resp, fst R = Ok resp /\ statusCode resp = 200%Z).
  { subst R. rewrite lambda_handler_run. unfold handler_paths.
    rewrite Hbody, Hid, Hread, Hev.
    rewrite bool_decide_eq_true_2 by assumption.
    destruct (st !! id); eauto. }
  destruct HR as [Hm Hresp]. split_and!; [done|done|].
  intros event' context'. by rewrite Hm.
Qed.

(** *** The agent client *)

Lemma lstrip_nil s : lstrip s = [] <-> blank s = true.
Proof.
  unfold blank. induction s as [|c s IH]; cbn [lstrip forallb]; [done|].
  destruct (isspace c); cbn [andb]; [exact IH|done].
Qed.

Lemma blank_rev s : blank (rev s) = blank s.
Proof.
  unfold blank. apply eq_true_iff_eq.
  rewrite !forallb_forall. setoid_rewrite <- in_rev. done.
Qed.

Lemma blank_lstrip s : blank (lstrip s) = blank s.
Proof.
  unfold blank. induction s as [|c s IH]; cbn [lstrip forallb]; [done|].
  destruct (isspace c) eqn:Hc; cbn [andb forallb]; [exact IH|].
  by rewrite Hc.
Qed.

(** [s.strip()] is falsy exactly when [s] is blank. *)
Lemma truthy_strip s : truthy_str (strip s) = negb (blank s).
Proof.
  unfold strip, rstrip.
  destruct (blank s) eqn:Hb.
  - apply lstrip_nil in Hb. by rewrite Hb.
  - assert (Hne : lstrip (rev (lstrip s)) <> []).
    { rewrite lstrip_nil, blank_rev, blank_lstrip, Hb. done. }
    destruct (lstrip (rev (lstrip s))) as [|c l]; [done|].
    cbn [rev]. by destruct (rev l).
Qed.

(** The loop appends the non-blank decoded payloads, in order. *)
Lemma consume_decoded events : forall texts completion s,
  existsb bytes_missing events = false ->
  decoded_payloads events = Some texts ->
  consume w events completion s
  = (Ok (completion ++ concat (List.filter (fun t => negb (blank t)) texts)), s).
Proof.
  induction events as [|f rest IH]; intros texts completion s Hwf Hdec.
  - injection Hdec as <-. cbn. by rewrite app_nil_r.
  - cbn [existsb] in Hwf. apply orb_false_elim in Hwf as [Hf Hrest].
    cbn [consume decoded_payloads] in *.
    unfold bytes_missing, payload, truthy_chunk in *.
    destruct (get_chunk f) as [d|]; [|by apply IH].
    unfold bind, decode_chunk.
    destruct (chunk_bytes d) as [b|].
    + destruct (utf8_decode b) as [t|]; [|done].
      destruct (decoded_payloads rest) as [ts|]; [|done].
      injection Hdec as <-. cbn [ret List.filter].
      rewrite truthy_strip.
      destruct (blank t); cbn [negb]; [by apply IH|].
      rewrite (IH ts) by done. cbn [concat]. by rewrite app_assoc.
    + destruct (chunk_attribution d); [done|by apply IH].
Qed.

(** C6, as amended. On a stream that ends normally and in which every
    non-empty chunk carries bytes that decode, [call_bedrock_agent] returns
    the concatenation, in arrival order, of the decoded payloads that are
    not blank, and the fallback text when that is empty. For the payloads
    Hel, lo, world it returns Hello, world; for the empty stream, the
    fallback. *)
Theorem agent_text_is_concat_of_nonblank
    question agent_id request_id events texts :
  bedrock w (agent_req cfg question agent_id request_id)
  = Completion events None ->
  existsb bytes_missing events = false ->
  decoded_payloads events = Some texts ->
  agent_outcome cfg w question agent_id request_id
  = Ok (spec_response (List.filter (fun t => negb (blank t)) texts))
  /\ (events = [chunk_of (encode_ascii "Hel"); chunk_of (encode_ascii "lo, ");
                chunk_of (encode_ascii "world")] ->
      agent_outcome cfg w question agent_id request_id = Ok (lit "Hello, world"))
  /\ (events = [] ->
      agent_outcome cfg w question agent_id request_id
      = Ok (lit "No response from the agent.")).
Proof.
  intros Hreply Hwf Hdec.
  assert (H : agent_outcome cfg w question agent_id request_id
              = Ok (spec_response (List.filter (fun t => negb (blank t)) texts))).
  { unfold agent_outcome, call_bedrock_agent, bind, try_except, log_call.
    fold (agent_req cfg question agent_id request_id). rewrite Hreply.
    rewrite (consume_decoded events texts) by done.
    cbn [ret fst app]. unfold spec_response, or_fallback.
    by destruct (truthy_str _). }
  split_and!; [done|..]; intros ->; rewrite H;
    vm_compute in Hdec; injection Hdec as <-; reflexivity.
Qed.

(** The loop skips the fragments whose [chunk] is absent or empty. *)
Lemma consume_skips_chunkless events : forall completion s,
  consume w events completion s
  = consume w (List.filter (fun f => truthy_chunk (get_chunk f)) events)
      completion s.
Proof.
  induction events as [|f rest IH]; intros completion s; [done|].
  cbn [consume List.filter].
  destruct (truthy_chunk (get_chunk f)) eqn:Hf; [|apply IH].
  cbn [consume]. rewrite Hf. unfold bind.
  destruct (decode_chunk w (get_chunk f) s) as [[t|e] s']; [|done].
  destruct (truthy_str (strip t)); apply IH.
Qed.

Lemma consume_with_stream events evs broken completion s :
  consume (with_stream w evs broken) events completion s
  = consume w events completion s.
Proof.
  revert completion s.
  induction events as [|f rest IH]; intros completion s; [done|].
  cbn [consume]. destruct (truthy_chunk (get_chunk f)); [|apply IH].
  unfold bind, decode_chunk. cbn [with_stream decode_error_text].
  destruct (get_chunk f) as [d|]; [|done].
  destruct (chunk_bytes d) as [b|]; [|done].
  destruct (utf8_decode b) as [t|]; [|done].
  cbn [ret]. destruct (truthy_str (strip t)); apply IH.
Qed.

Lemma agent_outcome_with_stream question agent_id request_id events broken :
  agent_outcome cfg (with_stream w events broken) question agent_id request_id
  = match fst (consume w events [] empty_machine), broken with
    | Ok completion, None => Ok (or_fallback completion)
    | Ok _, Some e => Raise e
    | Raise e, _ => Raise e
    end.
Proof.
  unfold agent_outcome, call_bedrock_agent, bind, try_except, log_call.
  cbn [with_stream bedrock]. rewrite consume_with_stream.
  rewrite consume_stateless.
  destruct (fst (consume w events [] empty_machine)) as [c|e]; [|done].
  destruct broken; [done|]. cbn. unfold or_fallback.
  by destruct (truthy_str c).
Qed.

(** C7, as amended. A fragment whose [chunk] is absent or is the empty
    dict is skipped and the stream is consumed further: removing these
    fragments from the stream changes neither what [call_bedrock_agent]
    returns nor whether it raises, and a stream made of such fragments only
    gives the fallback text. *)
Theorem chunkless_fragments_are_skipped
    question agent_id request_id events broken :
  agent_outcome cfg (with_stream w events broken) question agent_id request_id
  = agent_outcome cfg
      (with_stream w
         (List.filter (fun f => truthy_chunk (get_chunk f)) events) broken)
      question agent_id request_id
  /\ agent_outcome cfg
       (with_stream w
          (List.filter (fun f => negb (truthy_chunk (get_chunk f))) events) None)
       question agent_id request_id
     = Ok fallback.
Proof.
  split.
  - rewrite !agent_outcome_with_stream.
    by rewrite (consume_skips_chunkless events).
  - rewrite agent_outcome_with_stream, consume_skips_chunkless.
    replace (List.filter _ (List.filter _ events)) with (@nil fragment); [done|].
    induction events as [|f rest IH]; [done|]. cbn [List.filter].
    destruct (truthy_chunk (get_chunk f)) eqn:Hf; cbn [negb List.filter];
      [exact IH|by rewrite Hf].
Qed.

(** *** Acknowledgment and failure paths *)





(** C10, as amended. When the body cannot be parsed or has no [event_id],
    the handler raises before it calls the store, the agent or the
    notifier: nothing is marked processed and nobody is notified. The
    exception reaches the caller and no acknowledgment is returned. *)
Theorem malformed_body_raises_without_effect event context st :
  no_event_id event = true ->
  exists e,
    run (lambda_handler cfg w event context) st
    = (Raise e, {| store := st; calls := [] |}).
Proof.
  unfold no_event_id. intros Hbad.
  rewrite lambda_handler_run. unfold handler_paths.
  destruct (body event) as [e|o]; [by eexists|].
  destruct (get_event_id o) as [id|]; [|by eexists].
  by rewrite bool_decide_eq_true_2 in Hbad.
Qed.

End Properties.

(** ** Further properties of the clients *)

Section Clients.

Variable cfg : config.
Variable w : world.

(** *** Deduplication store client *)

(** After a mark that went through, the check answers 1 for the marked
    key, whatever the store held before, and answers for every other key
    what it answered before the mark. *)
Theorem mark_then_check event_id s :
  redis_setex_fault w = None ->
  redis_exists_fault w = None ->
  let s1 := snd (mark_event_as_processed w event_id s) in
  fst (event_id_already_processed w event_id s1) = Ok 1%Z
  /\ forall key, key <> event_id ->
       fst (event_id_already_processed w key s1)
       = fst (event_id_already_processed w key s).
Proof.
  intros Hwrite Hread s1. subst s1.
  rewrite mark_event_as_processed_run, !event_id_already_processed_run.
  rewrite Hwrite, Hread. cbn [fst snd store apply_call]. split.
  - by rewrite lookup_insert_eq.
  - intros key Hkey. rewrite !event_id_already_processed_run, Hread.
    cbn [fst store]. by rewrite lookup_insert_ne.
Qed.

(** When [SETEX] raises, [mark_event_as_processed] raises the same
    exception (it is logged and re-raised, not swallowed) and the store is
    as before, so that every later check answers as before. *)
Theorem failed_mark_reraises_and_keeps_store event_id s e :
  redis_setex_fault w = Some e ->
  let r := mark_event_as_processed w event_id s in
  fst r = Raise e
  /\ store (snd r) = store s
  /\ forall key,
       fst (event_id_already_processed w key (snd r))
       = fst (event_id_already_processed w key s).
Proof.
  intros Hwrite r. subst r.
  rewrite mark_event_as_processed_run, Hwrite. cbn [fst snd apply_call].
  split_and!; [done..|]. intros key.
  by rewrite !event_id_already_processed_run.
Qed.


(** *** Agent client *)

Lemma consume_split events1 events2 completion s :
  consume w (events1 ++ events2) completion s
  = match consume w events1 completion s with
    | (Ok c, s') => consume w events2 c s'
    | (Raise e, s') => (Raise e, s')
    end.
Proof.
  revert completion s.
  induction events1 as [|f rest IH]; intros completion s; [done|].
  cbn [app consume].
  destruct (truthy_chunk (get_chunk f)); [|apply IH].
  unfold bind. destruct (decode_chunk w (get_chunk f) s) as [[t|e] s']; [|done].
  destruct (truthy_str (strip t)); apply IH.
Qed.


(** [call_bedrock_agent] never returns the empty text: an empty
    accumulation is replaced by the fallback. *)
Theorem agent_text_is_never_empty question agent_id request_id answer :
  agent_outcome cfg w question agent_id request_id = Ok answer ->
  answer <> [].
Proof.
  unfold agent_outcome, call_bedrock_agent, bind, try_except, log_call.
  destruct (bedrock w _) as [e|events broken]; [done|].
  destruct (consume w events [] _) as [[c|e] s']; [|done].
  destruct broken; [done|]. cbn [ret fst].
  destruct c as [|x c]; cbn [truthy_str fst]; intros [= <-]; done.
Qed.

(** An exception of [invoke_agent], or of the stream breaking after
    fragments that were consumed without error, leaves
    [call_bedrock_agent] unchanged; the text accumulated before the break
    is lost. *)
Theorem agent_exception_passes_through question agent_id request_id e :
  bedrock w (agent_req cfg question agent_id request_id) = InvokeRaises e
  \/ (exists events texts,
        bedrock w (agent_req cfg question agent_id request_id)
        = Completion events (Some e)
        /\ existsb bytes_missing events = false
        /\ decoded_payloads events = Some texts) ->
  agent_outcome cfg w question agent_id request_id = Raise e.
Proof.
  unfold agent_outcome, call_bedrock_agent, bind, try_except, log_call.
  fold (agent_req cfg question agent_id request_id).
  intros [->|(events & texts & -> & Hwf & Hdec)]; [done|].
  by rewrite (consume_decoded w events texts).
Qed.

(** A payload that is not UTF-8 makes [call_bedrock_agent] raise the
    [UnicodeDecodeError] of that payload, whatever text was accumulated
    before and whatever follows in the stream. *)
Theorem undecodable_payload_raises
    question agent_id request_id before b after broken texts :
  bedrock w (agent_req cfg question agent_id request_id)
  = Completion (before ++ chunk_of b :: after) broken ->
  existsb bytes_missing before = false ->
  decoded_payloads before = Some texts ->
  utf8_decode b = None ->
  agent_outcome cfg w question agent_id request_id
  = Raise (Exn UnicodeDecodeError (decode_error_text w b)).
Proof.
  intros Hreply Hwf Hdec Hbad.
  unfold agent_outcome, call_bedrock_agent, bind, try_except, log_call.
  fold (agent_req cfg question agent_id request_id). rewrite Hreply.
  rewrite consume_split, (consume_decoded w before texts) by done.
  cbn [consume chunk_of get_chunk truthy_chunk chunk_bytes].
  unfold bind, decode_chunk. cbn [chunk_bytes]. by rewrite Hbad.
Qed.

End Clients.

(** ** The sanitized question *)

Section Sanitizing.

Variable cfg : config.

Lemma lstrip_split s : exists p, s = p ++ lstrip s /\ blank p = true.
Proof.
  induction s as [|c s (p & Hs & Hp)]; [by exists []|]. cbn [lstrip].
  destruct (isspace c) eqn:Hc; [|by exists []].
  exists (c :: p). cbn [app blank forallb]. rewrite Hc.
  split; [by f_equal|exact Hp].
Qed.

Lemma lstrip_head s c t : lstrip s = c :: t -> isspace c = false.
Proof.
  induction s as [|x s IH]; cbn [lstrip]; [done|].
  destruct (isspace x) eqn:Hx; [exact IH|]. by intros [= <- _].
Qed.

Lemma lstrip_fixed c t : isspace c = false -> lstrip (c :: t) = c :: t.
Proof. intros Hc. cbn [lstrip]. by rewrite Hc. Qed.

Lemma lstrip_lstrip s : lstrip (lstrip s) = lstrip s.
Proof.
  destruct (lstrip s) as [|c t] eqn:Hs; [done|].
  apply lstrip_fixed. by eapply lstrip_head.
Qed.

Lemma lstrip_blank_app p s : blank p = true -> lstrip (p ++ s) = lstrip s.
Proof.
  unfold blank. induction p as [|c p IH]; cbn [app forallb lstrip]; [done|].
  destruct (isspace c); [exact IH|done].
Qed.

(** The first and the last code point of a stripped text are not white
    space. *)
Lemma strip_first s c t : strip s = c :: t -> isspace c = false.
Proof.
  unfold strip, rstrip. intros Hs.
  destruct (lstrip_split (rev (lstrip s))) as (p & Hrev & Hp).
  apply (f_equal (@rev N)) in Hrev.
  rewrite rev_involutive, rev_app_distr, Hs in Hrev. cbn [app] in Hrev.
  by eapply lstrip_head.
Qed.

Lemma strip_last s init c : strip s = init ++ [c] -> isspace c = false.
Proof.
  unfold strip, rstrip. intros Hs.
  apply (f_equal (@rev N)) in Hs.
  rewrite rev_involutive, rev_app_distr in Hs. cbn [rev app] in Hs.
  by eapply lstrip_head.
Qed.

Lemma strip_strip s : strip (strip s) = strip s.
Proof.
  destruct (strip s) as [|c t] eqn:Hs; [done|].
  unfold strip at 1, rstrip.
  rewrite (lstrip_fixed c t) by (by eapply strip_first).
  destruct (rev (c :: t)) as [|x l] eqn:Hrev.
  { apply (f_equal (@rev N)) in Hrev. by rewrite rev_involutive in Hrev. }
  rewrite lstrip_fixed, <- Hrev, rev_involutive; [done|].
  apply (strip_last s (rev l)). rewrite Hs.
  apply (f_equal (@rev N)) in Hrev. by rewrite rev_involutive in Hrev.
Qed.

Lemma strip_blank_app p s : blank p = true -> strip (p ++ s) = strip s.
Proof. intros Hp. unfold strip. by rewrite lstrip_blank_app. Qed.

Lemma startswith_inv old : forall s,
  startswith s old = true -> exists post, s = old ++ post.
Proof.
  induction old as [|o old IH]; intros s; cbn [startswith]; [by exists s|].
  destruct s as [|c s]; [done|].
  intros [Hc Hs]%andb_prop. apply N.eqb_eq in Hc as ->.
  destruct (IH s Hs) as (post & ->). by exists post.
Qed.

Lemma startswith_app old post : startswith (old ++ post) old = true.
Proof.
  induction old as [|o old IH]; [by destruct post|]. cbn [app startswith].
  by rewrite N.eqb_refl.
Qed.

(** Where [old] does not occur, the scan changes nothing. *)
Lemma replace_scan_absent old new : forall s,
  ~ contains old s -> replace_scan old new O s = s.
Proof.
  induction s as [|c s IH]; intros Habsent; [done|]. cbn [replace_scan].
  destruct (startswith (c :: s) old) eqn:Hstart.
  - destruct (startswith_inv _ _ Hstart) as (post & Hpost).
    destruct Habsent. by exists [], post.
  - f_equal. apply IH. intros (pre & post & ->).
    apply Habsent. by exists (c :: pre), post.
Qed.

(** Inside an occurrence, the scan drops what is left of it. *)
Lemma replace_scan_skip old new l : forall s,
  replace_scan old new (length l) (l ++ s) = replace_scan old new O s.
Proof.
  induction l as [|c l IH]; intros s; [by destruct s|]. apply IH.
Qed.

(** At an occurrence, the scan emits [new] and goes on after it. *)
Lemma replace_scan_at_occurrence old new rest :
  replace_scan old new O (old ++ rest)
  = match old with
    | [] => replace_scan old new O rest
    | _ :: _ => new ++ replace_scan old new O rest
    end.
Proof.
  destruct old as [|c old]; [done|].
  pose proof (startswith_app (c :: old) rest) as Hstart.
  cbn [app replace_scan] in *. rewrite Hstart. cbn [length pred].
  by rewrite replace_scan_skip.
Qed.

(** Before an occurrence, white space is kept: no mention starts with
    white space. *)
Lemma replace_scan_blank p s :
  blank p = true ->
  replace_scan (mention cfg) [] O (p ++ s)
  = p ++ replace_scan (mention cfg) [] O s.
Proof.
  unfold blank. induction p as [|c p IH]; [done|].
  cbn [forallb app replace_scan]. intros [Hc Hp]%andb_prop.
  replace (startswith (c :: p ++ s) (mention cfg)) with false;
    [by rewrite IH|].
  unfold mention. change (lit "<@") with [60; 64].
  cbn [app startswith].
  destruct (N.eqb_spec c 60) as [->|]; [|done]. by vm_compute in Hc.
Qed.

Lemma question_of_unfold t :
  question_of cfg t = strip (replace_scan (mention cfg) [] O t).
Proof. unfold question_of, mention. by change (lit "<@") with [60; 64]. Qed.

(** The question sent to the agent is trimmed: stripping it again changes
    nothing, and neither its first nor its last code point is white
    space. *)
Theorem sanitized_question_is_trimmed t :
  let q := question_of cfg t in
  strip q = q
  /\ (forall c rest, q = c :: rest -> isspace c = false)
  /\ (forall init c, q = init ++ [c] -> isspace c = false).
Proof.
  unfold question_of. split_and!.
  - apply strip_strip.
  - intros c rest. apply strip_first.
  - intros init c. apply strip_last.
Qed.

(** A text in which the mention of the bot does not occur is passed to the
    agent as it is, stripped. *)
Theorem question_without_mention t :
  ~ contains (mention cfg) t ->
  question_of cfg t = strip t.
Proof.
  intros Habsent. by rewrite question_of_unfold, replace_scan_absent.
Qed.

Lemma question_of_after_mention ws rest :
  blank ws = true ->
  question_of cfg (ws ++ mention cfg ++ rest) = question_of cfg rest.
Proof.
  intros Hws. rewrite !question_of_unfold, replace_scan_blank by done.
  rewrite strip_blank_app by done. f_equal.
  apply (replace_scan_at_occurrence (mention cfg) []).
Qed.

(** A mention at the start of the text, after white space or not, is
    removed together with what stands before it: the question is that of
    the rest of the text. *)
Theorem leading_mention_is_dropped ws rest :
  blank ws = true ->
  question_of cfg (ws ++ mention cfg ++ rest) = question_of cfg rest.
Proof. apply question_of_after_mention. Qed.

End Sanitizing.

(** ** Further properties of the handler *)

Section Orchestration.

Variable cfg : config.
Variable w : world.

(** A run changes the store in one way at most: it adds the record of the
    event's own key, which was absent. Every record that was in the store
    before the run is still there, unchanged. *)
Theorem store_grows_by_the_event_key_only event context st :
  let m := snd (run (lambda_handler cfg w event context) st) in
  (store m = st
   \/ exists o id,
        body event = Parsed o /\ get_event_id o = Some id /\ st !! id = None
        /\ store m
           = <[id := {| dedup_value := lit "processed"; dedup_ttl := 3600 |}]> st)
  /\ forall key r, st !! key = Some r -> store m !! key = Some r.
Proof.
  rewrite lambda_handler_run. unfold handler_paths.
  destruct (body event) as [e|o] eqn:Hbody; [by split; [left|]|].
  destruct (get_event_id o) as [id|] eqn:Hid; [|by split; [left|]].
  destruct (redis_exists_fault w) as [e|]; [by split; [left|]|].
  destruct (st !! id) as [r0|] eqn:Hst; [by split; [left|]|].
  destruct (get_event o) as [sev|]; [|by split; [left|]].
  destruct (bool_decide _); [by split; [left|]|].
  destruct (get_text sev) as [t|]; [|by split; [left|]].
  destruct (agent_outcome _ _ _ _ _) as [answer|e]; [|by split; [left|]].
  destruct (slack_api w 0 _) as [status data|e]; [|by split; [left|]].
  destruct (redis_setex_fault w) as [e|]; [by split; [left|]|].
  cbn [snd store]. split; [right; by exists o, id|].
  intros key r Hkey. rewrite lookup_insert_ne; [done|]. congruence.
Qed.

(** Once a run has written the mark (its log holds a [SETEX] that did not
    fail), a re-delivery of the same event on the resulting store does
    nothing but the existence check, and is acknowledged with Success. *)
Theorem redelivery_after_mark_is_noop event context context' st key ttl value :
  let m := snd (run (lambda_handler cfg w event context) st) in
  In (RedisSetex key ttl value None) (calls m) ->
  run (lambda_handler cfg w event context') (store m)
  = (Ok (ack "Success"), {| store := store m; calls := [RedisExists key] |}).
Proof.
  intros m. subst m.
  rewrite (lambda_handler_run cfg w event context st). unfold handler_paths.
  destruct (body event) as [e|o] eqn:Hbody; [intros []|].
  destruct (get_event_id o) as [id|] eqn:Hid; [|intros []].
  destruct (redis_exists_fault w) as [e|] eqn:Hread; [by intros [|[]]|].
  destruct (st !! id) as [r|] eqn:Hst; [by intros [|[]]|].
  destruct (get_event o) as [sev|]; [|by intros [|[]]].
  destruct (bool_decide _); [by intros [|[]]|].
  destruct (get_text sev) as [t|]; [|by intros [|[]]].
  destruct (agent_outcome _ _ _ _ _) as [answer|e];
    [|by intros [|[|[|[]]]]].
  destruct (slack_api w 0 _) as [status data|e];
    [|by intros [|[|[|[|[]]]]]].
  destruct (redis_setex_fault w) as [e|]; cbn [snd calls store].
  - by intros [|[|[|[|[|[]]]]]].
  - intros [|[|[|[H|[]]]]]; try done. injection H as <- <- <-.
    rewrite lambda_handler_run. unfold handler_paths.
    by rewrite Hbody, Hid, Hread, lookup_insert_eq.
Qed.

(** A run that did not write the mark leaves the store as it found it, so
    that a re-delivery is handled as if the failed run had not happened. *)
Theorem unmarked_run_keeps_store event context st :
  let m := snd (run (lambda_handler cfg w event context) st) in
  (forall key ttl value, ~ In (RedisSetex key ttl value None) (calls m)) ->
  store m = st
  /\ forall event' context',
       run (lambda_handler cfg w event' context') (store m)
       = run (lambda_handler cfg w event' context') st.
Proof.
  intros m Hlog.
  assert (Hm : store m = st); [|by rewrite Hm].
  revert Hlog. subst m. rewrite lambda_handler_run. unfold handler_paths.
  repeat case_match; cbn [snd store calls]; try done.
  intros Hlog. exfalso. eapply Hlog. do 3 right. by left.
Qed.

(** When the key is new and the body has no [event] object, or has an
    event of another user than the bot without [text], the handler raises
    an [AttributeError] right after the existence check: no agent call, no
    post (the user is told nothing) and no write. *)
Theorem missing_field_raises_after_check event context st o id :
  body event = Parsed o ->
  get_event_id o = Some id ->
  redis_exists_fault w = None ->
  st !! id = None ->
  get_event o = None
  \/ (exists sev, get_event o = Some sev
                  /\ get_user sev <> SLACK_BOT_USER_ID cfg
                  /\ get_text sev = None) ->
  exists attr,
    run (lambda_handler cfg w event context) st
    = (Raise (none_has_no attr), {| store := st; calls := [RedisExists id] |}).
Proof.
  intros Hbody Hid Hread Hnew Hmissing.
  rewrite lambda_handler_run. unfold handler_paths.
  rewrite Hbody, Hid, Hread, Hnew.
  destruct Hmissing as [->|(sev & -> & Huser & ->)]; [by eexists|].
  rewrite bool_decide_eq_false_2 by assumption. by eexists.
Qed.

(** When the existence check raises, the handler raises the same
    exception at once: no agent call, no post, no write, and no
    acknowledgment. *)
Theorem failed_check_stops_the_run event context st o id e :
  body event = Parsed o ->
  get_event_id o = Some id ->
  redis_exists_fault w = Some e ->
  run (lambda_handler cfg w event context) st
  = (Raise e, {| store := st; calls := [RedisExists id] |}).
Proof.
  intros Hbody Hid Hread.
  rewrite lambda_handler_run. unfold handler_paths.
  by rewrite Hbody, Hid, Hread.
Qed.

(** Unfolds the run of a new event of another user than the bot, with a
    text, down to the agent's outcome. *)
Ltac enter_processing Hbody Hid Hread Hnew Hev Huser Htext :=
  rewrite lambda_handler_run; unfold handler_paths;
  rewrite Hbody, Hid, Hread, Hnew, Hev, Htext;
  rewrite bool_decide_eq_false_2 by assumption.

(** Every question gets a post: when the run reaches the agent, the first
    post carries the agent's answer or, if the agent raised, the apology
    with its error; and every post of the run goes to the channel and the
    thread of the event, mentions its user, and bears the configured
    token. *)
Theorem every_question_gets_a_post event context st o id sev t :
  body event = Parsed o ->
  get_event_id o = Some id ->
  redis_exists_fault w = None ->
  st !! id = None ->
  get_event o = Some sev ->
  get_user sev <> SLACK_BOT_USER_ID cfg ->
  get_text sev = Some t ->
  let posts :=
    List.filter is_post (calls (snd (run (lambda_handler cfg w event context) st))) in
  let outcome :=
    agent_outcome cfg w (question_of cfg t) (AGENT_ID cfg) (aws_request_id context) in
  (exists message reply rest,
     posts = SlackPost slack_url (slack_headers cfg)
               (slack_data (get_channel sev) message (get_user sev) (get_ts sev))
               reply :: rest
     /\ (outcome = Ok message
         \/ exists e, outcome = Raise e /\ message = apology e))
  /\ Forall (addressed_to cfg sev) posts.
Proof.
  intros Hbody Hid Hread Hnew Hev Huser Htext posts outcome.
  subst posts outcome.
  enter_processing Hbody Hid Hread Hnew Hev Huser Htext.
  unfold addressed_to.
  destruct (agent_outcome _ _ _ _ _) as [answer|e].
  - destruct (slack_api w 0 _) as [status data|e] eqn:Hpost.
    + destruct (redis_setex_fault w) as [e|];
        cbn [snd calls List.filter is_post];
        (split; [by eauto 8|repeat constructor; by eauto]).
    + cbn [snd calls List.filter is_post].
      split; [by eauto 8|repeat constructor; by eauto].
  - cbn [snd calls List.filter is_post].
    split; [by eauto 8|repeat constructor; by eauto].
Qed.

(** The request sent to the agent: tracing is on, the session is not
    ended, the session is the request id of the Lambda invocation, the
    agent and its alias are the configured ones, and the input text is
    trimmed. *)
Theorem agent_request_of_a_run event context st req :
  In (InvokeAgent req) (calls (snd (run (lambda_handler cfg w event context) st))) ->
  enableTrace req = true
  /\ endSession req = false
  /\ sessionId req = aws_request_id context
  /\ agentId req = AGENT_ID cfg
  /\ agentAliasId req = AGENT_ID_ALIAS cfg
  /\ strip (inputText req) = inputText req.
Proof.
  rewrite lambda_handler_run. unfold handler_paths.
  assert (Hreq : forall t,
            InvokeAgent (agent_req cfg (question_of cfg t) (AGENT_ID cfg)
                           (aws_request_id context)) = InvokeAgent req ->
            enableTrace req = true /\ endSession req = false
            /\ sessionId req = aws_request_id context
            /\ agentId req = AGENT_ID cfg
            /\ agentAliasId req = AGENT_ID_ALIAS cfg
            /\ strip (inputText req) = inputText req).
  { intros t [= <-]. cbn [agent_req enableTrace endSession sessionId agentId
                            agentAliasId inputText].
    split_and!; try done. apply strip_strip. }
  repeat case_match; cbn [snd calls In];
    intros Hin;
    repeat (destruct Hin as [Hin|Hin];
            [first [discriminate Hin | by apply (Hreq _ Hin)]|]);
    destruct Hin.
Qed.

(** The shape of the log of a run: the existence check comes first and
    happens once; the agent is invoked at most once and the mark written
    at most once; and a run that does not invoke the agent neither posts
    nor writes. *)
Theorem log_of_a_run event context st :
  let log := calls (snd (run (lambda_handler cfg w event context) st)) in
  (forall c rest, log = c :: rest -> is_exists c = true)
  /\ (length (List.filter is_exists log) <= 1)%nat
  /\ (length (List.filter is_invoke log) <= 1)%nat
  /\ (length (List.filter is_setex log) <= 1)%nat
  /\ (List.filter is_invoke log = [] ->
      List.filter is_post log = [] /\ List.filter is_setex log = []).
Proof.
  rewrite lambda_handler_run. unfold handler_paths.
  repeat case_match;
    cbn [snd calls List.filter is_exists is_invoke is_setex is_post length];
    split_and!; try done; try lia; by intros c rest [= <- _].
Qed.

(** When the agent raises and the post of the apology raises too, the
    handler raises the exception of the post, not that of the agent; the
    store is as before and no acknowledgment is returned. *)
Theorem failed_apology_masks_the_error event context st o id sev t e e' :
  body event = Parsed o ->
  get_event_id o = Some id ->
  redis_exists_fault w = None ->
  st !! id = None ->
  get_event o = Some sev ->
  get_user sev <> SLACK_BOT_USER_ID cfg ->
  get_text sev = Some t ->
  agent_outcome cfg w (question_of cfg t) (AGENT_ID cfg) (aws_request_id context)
  = Raise e ->
  slack_api w 0
    (slack_data (get_channel sev) (apology e) (get_user sev) (get_ts sev))
  = RequestRaises e' ->
  let R := run (lambda_handler cfg w event context) st in
  fst R = Raise e'
  /\ store (snd R) = st
  /\ length (calls (snd R)) = 3%nat.
Proof.
  intros Hbody Hid Hread Hnew Hev Huser Htext Hagent Hpost R. subst R.
  enter_processing Hbody Hid Hread Hnew Hev Huser Htext.
  by rewrite Hagent, Hpost.
Qed.

(** When the answer was posted and the write of the mark raises [e], the
    user gets the answer and then the apology for [e], the event is left
    unmarked, and the acknowledgment is that of the apology path. *)
Theorem failed_write_after_answer event context st o id sev t answer status data e :
  body event = Parsed o ->
  get_event_id o = Some id ->
  redis_exists_fault w = None ->
  st !! id = None ->
  get_event o = Some sev ->
  get_user sev <> SLACK_BOT_USER_ID cfg ->
  get_text sev = Some t ->
  agent_outcome cfg w (question_of cfg t) (AGENT_ID cfg) (aws_request_id context)
  = Ok answer ->
  slack_api w 0 (slack_data (get_channel sev) answer (get_user sev) (get_ts sev))
  = Responded status data ->
  redis_setex_fault w = Some e ->
  let R := run (lambda_handler cfg w event context) st in
  store (snd R) = st
  /\ posted_texts (calls (snd R))
     = [lit "<@" ++ py_str (get_user sev) ++ lit "> " ++ answer;
        lit "<@" ++ py_str (get_user sev) ++ lit "> " ++ apology e]
  /\ fst R
     = after_apology
         (slack_api w 1
            (slack_data (get_channel sev) (apology e) (get_user sev) (get_ts sev))).
Proof.
  intros Hbody Hid Hread Hnew Hev Huser Htext Hagent Hpost Hwrite R. subst R.
  enter_processing Hbody Hid Hread Hnew Hev Huser Htext.
  by rewrite Hagent, Hpost, Hwrite.
Qed.

(** When the post of the answer raises [e], the mark is not written: the
    handler posts the apology for [e] and leaves the event unmarked, so
    that a re-delivery asks the agent again. *)
Theorem raised_post_leads_to_apology event context st o id sev t answer e :
  body event = Parsed o ->
  get_event_id o = Some id ->
  redis_exists_fault w = None ->
  st !! id = None ->
  get_event o = Some sev ->
  get_user sev <> SLACK_BOT_USER_ID cfg ->
  get_text sev = Some t ->
  agent_outcome cfg w (question_of cfg t) (AGENT_ID cfg) (aws_request_id context)
  = Ok answer ->
  slack_api w 0 (slack_data (get_channel sev) answer (get_user sev) (get_ts sev))
  = RequestRaises e ->
  let R := run (lambda_handler cfg w event context) st in
  store (snd R) = st
  /\ List.filter is_setex (calls (snd R)) = []
  /\ posted_texts (calls (snd R))
     = [lit "<@" ++ py_str (get_user sev) ++ lit "> " ++ answer;
        lit "<@" ++ py_str (get_user sev) ++ lit "> " ++ apology e]
  /\ fst R
     = after_apology
         (slack_api w 1
            (slack_data (get_channel sev) (apology e) (get_user sev) (get_ts sev))).
Proof.
  intros Hbody Hid Hread Hnew Hev Huser Htext Hagent Hpost R. subst R.
  enter_processing Hbody Hid Hread Hnew Hev Huser Htext.
  by rewrite Hagent, Hpost.
Qed.

(** A text that is nothing but the mention of the bot, with or without
    white space around it, is not filtered out: the agent is invoked with
    the empty question. *)
Theorem bare_mention_asks_the_empty_question event context st o id sev ws ws' :
  body event = Parsed o ->
  get_event_id o = Some id ->
  redis_exists_fault w = None ->
  st !! id = None ->
  get_event o = Some sev ->
  get_user sev <> SLACK_BOT_USER_ID cfg ->
  get_text sev = Some (ws ++ mention cfg ++ ws') ->
  blank ws = true ->
  blank ws' = true ->
  In (InvokeAgent (agent_req cfg [] (AGENT_ID cfg) (aws_request_id context)))
     (calls (snd (run (lambda_handler cfg w event context) st))).
Proof.
  intros Hbody Hid Hread Hnew Hev Huser Htext Hws Hws'.
  enter_processing Hbody Hid Hread Hnew Hev Huser Htext.
  rewrite question_of_after_mention by done.
  replace (question_of cfg ws') with (@nil N).
  - repeat case_match; cbn [snd calls In]; tauto.
  - rewrite <- (app_nil_r ws'), question_of_unfold, replace_scan_blank by done.
    by rewrite strip_blank_app.
Qed.

End Orchestration.

(** *** The string model on known values *)

Example sanitized_question :
  question_of demo_cfg (lit "<@BOT123> what is X?") = lit "what is X?".
Proof. reflexivity. Qed.

Example replace_is_not_overlapping :
  replace (lit "aaa") (lit "aa") (lit "b") = lit "ba".
Proof. reflexivity. Qed.

Example replace_of_empty_pattern :
  replace (lit "abc") [] (lit "-") = lit "-a-b-c-".
Proof. reflexivity. Qed.

Example strip_keeps_inner_space :
  strip (lit "  what is X? ") = lit "what is X?".
Proof. reflexivity. Qed.

(** e-acute, the euro sign and U+1F600, one to four bytes each. *)
Example utf8_decode_multibyte :
  utf8_decode [x41; xc3; xa9; xe2; x82; xac; xf0; x9f; x98; x80]
  = Some [0x41; 0xE9; 0x20AC; 0x1F600].
Proof. reflexivity. Qed.

(** An over-long form, a surrogate, a truncated sequence and a lone
    continuation byte are refused. *)
Example utf8_decode_strict :
  utf8_decode [xc0; x80] = None
  /\ utf8_decode [xed; xa0; x80] = None
  /\ utf8_decode [xe2; x82] = None
  /\ utf8_decode [x80] = None.
Proof. repeat split. Qed.

(** A no-break space is white space for [str.strip]. *)
Example nbsp_payload_is_blank :
  option_map blank (utf8_decode [xc2; xa0; x20]) = Some true.
Proof. reflexivity. Qed.

(** *** Where the code departs from the wording of the specification *)


(** C6. A payload of white space is dropped from the accumulated text:
    for the payloads Hello, one space, world the agent client returns
    Helloworld, where the concatenation of the decoded payloads is
    Hello world. *)
Lemma blank_payload_is_dropped :
  let outcome :=
    agent_outcome demo_cfg (with_stream healthy spaced_stream None)
      (lit "what is X?") (Some (lit "AGENT1")) (lit "req-1") in
  decoded_payloads spaced_stream = Some [lit "Hello"; lit " "; lit "world"]
  /\ spec_response [lit "Hello"; lit " "; lit "world"] = lit "Hello world"
  /\ outcome = Ok (lit "Helloworld")
  /\ outcome <> Ok (spec_response [lit "Hello"; lit " "; lit "world"]).
Proof.
  split_and!; [reflexivity..|].
  intros H. vm_compute in H. discriminate H.
Qed.

(** C7. A fragment whose chunk has an attribution and no bytes carries no
    byte payload, and it makes the agent client raise: [None] has no
    [decode]. *)
Lemma chunk_without_bytes_raises :
  payload attribution_only = None
  /\ agent_outcome demo_cfg (with_stream healthy [attribution_only] None)
       (lit "what is X?") (Some (lit "AGENT1")) (lit "req-1")
     = Raise (none_has_no "decode").
Proof. split; reflexivity. Qed.



(** C10. A body that is not JSON gets no acknowledgment: the run ends in
    the exception. And a body that lacks [user] does not abort the run: the
    agent is invoked, the answer is posted and the event is marked. *)
Lemma malformed_body_is_not_acknowledged :
  (forall resp,
     fst (run (lambda_handler demo_cfg healthy garbage_event demo_context) ∅)
     <> Ok resp)
  /\ let m := snd (run (lambda_handler demo_cfg healthy anonymous_event demo_context) ∅) in
     length (List.filter is_invoke (calls m)) = 1%nat
     /\ length (List.filter is_sent (calls m)) = 1%nat
     /\ store m !! lit "Ev1" = Some processed.
Proof.
  split; [|split_and!; reflexivity].
  intros resp H. vm_compute in H. discriminate H.
Qed.

(** *** The properties on concrete runs *)

Lemma duplicate_delivery_is_noop_on_seen_store :
  run (lambda_handler demo_cfg healthy demo_event demo_context) seen_store
  = (Ok (ack "Success"),
     {| store := seen_store; calls := [RedisExists (lit "Ev1")] |}).
Proof.
  eapply (duplicate_delivery_is_noop demo_cfg healthy demo_event demo_context
            seen_store); reflexivity.
Defined.

Lemma agent_failure_on_throttled_agent :
  store (snd (run (lambda_handler demo_cfg agent_down demo_event demo_context) ∅))
    !! lit "Ev1"
  = None.
Proof.
  refine (proj1 (agent_failure_notifies_once_and_does_not_mark demo_cfg
                   agent_down demo_event demo_context ∅ _ _ _ _ _
                   _ _ _ _ _ _ _ _));
    first [reflexivity | vm_compute; discriminate].
Defined.

Lemma successful_run_on_healthy_world :
  store (snd (run (lambda_handler demo_cfg healthy demo_event demo_context) ∅))
    !! lit "Ev1"
  = Some processed.
Proof.
  refine (proj1 (proj2 (proj2
            (successful_run_marks_last demo_cfg healthy demo_event demo_context
               ∅ _ _ _ _ _ _ _ _ _ _ _ _ _ _ _ _ _))));
    first [reflexivity | vm_compute; discriminate].
Defined.

Lemma self_message_on_bot_event :
  snd (run (lambda_handler demo_cfg healthy bot_event demo_context) ∅)
  = {| store := ∅; calls := [RedisExists (lit "Ev1")] |}.
Proof.
  refine (proj1 (proj2
            (self_message_has_no_effect demo_cfg healthy bot_event demo_context
               ∅ _ _ _ _ _ _ _ _)));
    reflexivity.
Defined.

Lemma agent_text_on_hello_stream :
  agent_outcome demo_cfg healthy (lit "what is X?") (Some (lit "AGENT1")) (lit "req-1")
  = Ok (lit "Hello, world").
Proof.
  refine (proj1 (proj2
            (agent_text_is_concat_of_nonblank demo_cfg healthy (lit "what is X?")
               (Some (lit "AGENT1")) (lit "req-1") hello_stream _ _ _ _)) _);
    reflexivity.
Defined.


Lemma malformed_body_on_garbage :
  exists e,
    run (lambda_handler demo_cfg healthy garbage_event demo_context) ∅
    = (Raise e, {| store := ∅; calls := [] |}).
Proof.
  apply (malformed_body_raises_without_effect demo_cfg healthy garbage_event
           demo_context ∅).
  reflexivity.
Defined.

(** *** The further properties on concrete runs *)

Lemma mark_then_check_on_stale_record :
  fst (event_id_already_processed healthy (lit "Ev1")
         (snd (mark_event_as_processed healthy (lit "Ev1") stale_machine)))
  = Ok 1%Z.
Proof.
  refine (proj1 (mark_then_check healthy (lit "Ev1") stale_machine _ _));
    reflexivity.
Defined.

Lemma failed_mark_on_write_down :
  fst (mark_event_as_processed redis_write_down (lit "Ev1") stale_machine)
  = Raise (Exn RedisError (lit "Connection refused.")).
Proof.
  refine (proj1 (failed_mark_reraises_and_keeps_store redis_write_down
                   (lit "Ev1") stale_machine _ _)).
  reflexivity.
Defined.


Lemma agent_text_is_never_empty_on_empty_stream :
  fallback <> [].
Proof.
  apply (agent_text_is_never_empty demo_cfg (with_stream healthy [] None)
           (lit "what is X?") (Some (lit "AGENT1")) (lit "req-1") fallback).
  reflexivity.
Defined.

Lemma agent_exception_on_broken_stream :
  agent_outcome demo_cfg
    (with_stream healthy hello_stream (Some (Exn ClientError (lit "stream reset"))))
    (lit "what is X?") (Some (lit "AGENT1")) (lit "req-1")
  = Raise (Exn ClientError (lit "stream reset")).
Proof.
  apply agent_exception_passes_through. right.
  exists hello_stream, [lit "Hel"; lit "lo, "; lit "world"].
  repeat split.
Defined.

Lemma undecodable_payload_after_hello :
  agent_outcome demo_cfg
    (with_stream healthy (hello_stream ++ chunk_of [xff] :: hello_stream) None)
    (lit "what is X?") (Some (lit "AGENT1")) (lit "req-1")
  = Raise (Exn UnicodeDecodeError (lit "invalid start byte")).
Proof.
  apply (undecodable_payload_raises demo_cfg
           (with_stream healthy (hello_stream ++ chunk_of [xff] :: hello_stream) None)
           (lit "what is X?") (Some (lit "AGENT1")) (lit "req-1")
           hello_stream [xff] hello_stream None
           [lit "Hel"; lit "lo, "; lit "world"]);
    reflexivity.
Defined.

Lemma question_without_mention_on_hi :
  question_of demo_cfg (lit " hi ") = strip (lit " hi ").
Proof.
  apply question_without_mention.
  intros (pre & post & H). vm_compute in H.
  destruct pre as [|a [|b [|c [|d [|x pre]]]]]; cbn in H; discriminate H.
Defined.

Lemma leading_mention_on_demo_text :
  question_of demo_cfg (lit " " ++ mention demo_cfg ++ lit " what is X?")
  = question_of demo_cfg (lit " what is X?").
Proof.
  apply leading_mention_is_dropped. reflexivity.
Defined.

Lemma redelivery_on_healthy_world :
  run (lambda_handler demo_cfg healthy demo_event demo_context)
      (store (snd (run (lambda_handler demo_cfg healthy demo_event demo_context) ∅)))
  = (Ok (ack "Success"),
     {| store := store (snd (run (lambda_handler demo_cfg healthy demo_event
                                    demo_context) ∅));
        calls := [RedisExists (lit "Ev1")] |}).
Proof.
  apply (redelivery_after_mark_is_noop demo_cfg healthy demo_event demo_context
           demo_context ∅ (lit "Ev1") 3600 (lit "processed")).
  vm_compute. tauto.
Defined.

Lemma unmarked_run_on_throttled_agent :
  store (snd (run (lambda_handler demo_cfg agent_down demo_event demo_context) ∅))
  = ∅.
Proof.
  refine (proj1 (unmarked_run_keeps_store demo_cfg agent_down demo_event
                   demo_context ∅ _)).
  intros key ttl value H. vm_compute in H.
  destruct H as [H|[H|[H|[]]]]; discriminate H.
Defined.

Lemma missing_text_on_textless_event :
  exists attr,
    run (lambda_handler demo_cfg healthy textless_event demo_context) ∅
    = (Raise (none_has_no attr),
       {| store := ∅; calls := [RedisExists (lit "Ev1")] |}).
Proof.
  eapply (missing_field_raises_after_check demo_cfg healthy textless_event
            demo_context ∅); [reflexivity..|].
  right. eexists. repeat split. vm_compute. discriminate.
Defined.

Lemma failed_check_on_read_down :
  run (lambda_handler demo_cfg redis_read_down demo_event demo_context) ∅
  = (Raise (Exn RedisError (lit "Connection refused.")),
     {| store := ∅; calls := [RedisExists (lit "Ev1")] |}).
Proof.
  eapply (failed_check_stops_the_run demo_cfg redis_read_down demo_event
            demo_context ∅); reflexivity.
Defined.

Lemma every_post_of_throttled_run_is_addressed :
  Forall (addressed_to demo_cfg
            {| get_text := Some (lit "<@BOT123> what is X?");
               get_user := Some (lit "U1");
               get_channel := Some (lit "C1");
               get_ts := Some (lit "1700000000.1") |})
    (List.filter is_post
       (calls (snd (run (lambda_handler demo_cfg agent_down demo_event
                           demo_context) ∅)))).
Proof.
  refine (proj2 (every_question_gets_a_post demo_cfg agent_down demo_event
                   demo_context ∅ _ (lit "Ev1") _ _ _ _ _ _ _ _ _));
    first [reflexivity | vm_compute; discriminate].
Defined.

Lemma agent_request_on_healthy_world :
  sessionId (agent_req demo_cfg (lit "what is X?") (Some (lit "AGENT1"))
               (lit "req-1"))
  = aws_request_id demo_context.
Proof.
  refine (proj1 (proj2 (proj2
            (agent_request_of_a_run demo_cfg healthy demo_event demo_context ∅
               _ _)))).
  vm_compute. tauto.
Defined.

Lemma failed_apology_on_all_down :
  fst (run (lambda_handler demo_cfg all_down demo_event demo_context) ∅)
  = Raise (Exn HTTPError (lit "Max retries exceeded")).
Proof.
  refine (proj1 (failed_apology_masks_the_error demo_cfg all_down demo_event
                   demo_context ∅ _ (lit "Ev1") _ _
                   (Exn ClientError (lit "ThrottlingException")) _
                   _ _ _ _ _ _ _ _ _));
    first [reflexivity | vm_compute; discriminate].
Defined.

Lemma failed_write_on_write_down :
  store (snd (run (lambda_handler demo_cfg redis_write_down demo_event
                     demo_context) ∅))
  = ∅.
Proof.
  refine (proj1 (failed_write_after_answer demo_cfg redis_write_down demo_event
                   demo_context ∅ _ (lit "Ev1") _ _ (lit "Hello, world") 200 []
                   (Exn RedisError (lit "Connection refused."))
                   _ _ _ _ _ _ _ _ _ _));
    first [reflexivity | vm_compute; discriminate].
Defined.

Lemma raised_post_on_timeout :
  store (snd (run (lambda_handler demo_cfg slack_times_out demo_event
                     demo_context) ∅))
  = ∅.
Proof.
  refine (proj1 (raised_post_leads_to_apology demo_cfg slack_times_out
                   demo_event demo_context ∅ _ (lit "Ev1") _ _
                   (lit "Hello, world") (Exn HTTPError (lit "Read timed out."))
                   _ _ _ _ _ _ _ _ _));
    first [reflexivity | vm_compute; discriminate].
Defined.

Lemma bare_mention_on_mention_only_event :
  In (InvokeAgent (agent_req demo_cfg [] (AGENT_ID demo_cfg)
                     (aws_request_id demo_context)))
     (calls (snd (run (lambda_handler demo_cfg healthy mention_only_event
                         demo_context) ∅))).
Proof.
  eapply (bare_mention_asks_the_empty_question demo_cfg healthy
            mention_only_event demo_context ∅ _ (lit "Ev1") _ [] (lit " "));
    first [reflexivity | vm_compute; discriminate].
Defined.
